(** * govulnapi: the price-management daemon and the coin catalog

    A shallow embedding of [api/api.go]: the [Api] structure, its
    constructor [New], the background loop [managePrices], the fetcher
    [refreshCoins] with its retry loop, and the lookup [getCoin].

    The daemon never terminates and talks to the outside world
    ([http.Get], [time.Sleep], [log.Println]).  It is modelled as a
    deterministic machine whose control points are the statements of
    [managePrices] and [refreshCoins]; the upstream server is an oracle
    giving the outcome of every call of [http.Get], and every external
    effect is appended to a trace. *)

From Stdlib Require Import ZArith List String Ascii Bool Lia.
From Stdlib Require Import DecimalString DecimalPos DecimalZ.
Import ListNotations.

Local Open Scope string_scope.
Local Open Scope list_scope.
Local Open Scope Z_scope.

(** ** Package [time]

    As the package documents them: a [time.Time] is an instant with
    nanosecond precision, a [time.Duration] a count of nanoseconds, and
    [t.Add(d)] is the instant [t+d].  Instants are counted from the Unix
    epoch.  The calendar enters only through [time.Date], whose day
    count is the proleptic Gregorian one. *)
Module time.

Definition Time : Type := Z.
Definition Duration : Type := Z.

Definition Nanosecond : Duration := 1.
Definition Microsecond : Duration := 1000 * Nanosecond.
Definition Millisecond : Duration := 1000 * Microsecond.
Definition Second : Duration := 1000 * Millisecond.
Definition Minute : Duration := 60 * Second.
Definition Hour : Duration := 60 * Minute.

Definition January : Z := 1.

(** Days between 1970-01-01 and the civil date [y]-[m]-[d]. *)
Definition daysSinceEpoch (y m d : Z) : Z :=
  let y' := if m <=? 2 then y - 1 else y in
  let era := y' / 400 in
  let yoe := y' - era * 400 in
  let mp := (m + 9) mod 12 in
  let doy := (153 * mp + 2) / 5 + d - 1 in
  let doe := yoe * 365 + yoe / 4 - yoe / 100 + doy in
  era * 146097 + doe - 719468.

(** [time.Date(year, month, day, hour, min, sec, nsec, time.UTC)]. *)
Definition Date (year month day hour min sec nsec : Z) : Time :=
  (((daysSinceEpoch year month day * 24 + hour) * 60 + min) * 60 + sec)
    * Second + nsec.

(** [t.Add(d)]. *)
Definition Add (t : Time) (d : Duration) : Time := t + d.

(** The value that a count takes as an [int64]. *)
Definition int64 (z : Z) : Z := (z + 2 ^ 63) mod 2 ^ 64 - 2 ^ 63.

(** [t.UnixMilli()]: milliseconds elapsed since the Unix epoch, as an
    [int64]. *)
Definition UnixMilli (t : Time) : Z := int64 (t / Millisecond).

End time.

(** ** Package [errors]: an error value carries its message; [nil] is
    [None] of [option error]. *)
Inductive error : Type :=
| errors_New (msg : string).

Definition error_message (e : error) : string :=
  match e with errors_New msg => msg end.

(** ** Package [fmt]: the one format used, ["%s/coins/%v"] applied to a
    string and an [int64]. *)
Definition format_int (n : Z) : string :=
  NilZero.string_of_int (Z.to_int n).

Definition Sprintf_coins (base : string) (millis : Z) : string :=
  (base ++ "/coins/" ++ format_int millis)%string.

(** ** Package [net/http]

    [http.Get] yields a response whenever the exchange completes at the
    transport level, whatever its status code, and an error otherwise. *)
Module http.

Record Response : Type := { StatusCode : Z; Body : string }.

Definition GetResult : Type := (Response + error)%type.

End http.

(** ** Package [models]

    Modelled from the spec: the declaration of [models.Coin] is not among
    the sources.  A coin has a string identifier (the field [Id] that
    [getCoin] compares) and price and metadata fields that the daemon
    and the lookup carry along without inspecting them. *)
Class CoinFields : Type := {
  Fields : Type;
  Fields_zero : Fields
}.

Module m.

Record Coin `{CoinFields} : Type := { Id : string; Rest : Fields }.

(** The composite literal [m.Coin{}]: every field at its zero value. *)
Definition zero `{CoinFields} : Coin := {| Id := ""; Rest := Fields_zero |}.

End m.

(** ** The collaborators of [Api]

    The database, the router, the JWT handler and the JSON decoder are
    used through their interfaces only.  [json_Decode body v] stands for
    [json.NewDecoder(body).Decode(&v)]: it gives the value left in the
    target, which held [v] before, and the error returned. *)
Class Packages `{CoinFields} : Type := {
  DB : Type;
  Router : Type;
  JWTAuth : Type;
  database_Init : string -> DB;
  db_GetCoins : DB -> list m.Coin * option error;
  chi_NewRouter : Router;
  jwtauth_New : string -> string -> JWTAuth;
  json_Decode : string -> list m.Coin -> list m.Coin * option error
}.

Section Api.

Context {F : CoinFields} {P : Packages}.

Record Api : Type := {
  db : DB;
  router : Router;
  coins : list m.Coin;
  currentDate : time.Time;
  dayDuration : time.Duration;
  coingeckoBaseUrl : string;
  listenAddress : string;
  jwtAuth : JWTAuth
}.

(** [New]; [None] is the exit through [log.Fatalln]. *)
Definition New (listenAddress0 coingeckoBaseUrl0 : string) : option Api :=
  let db0 := database_Init "api.db" in
  let virtualTime := time.Date 2014 time.January 1 0 0 0 0 in
  let priceRefreshInterval := time.Minute in
  let '(coins0, err) := db_GetCoins db0 in
  match err with
  | Some _ => None
  | None =>
      Some {| db := db0;
              router := chi_NewRouter;
              currentDate := virtualTime;
              dayDuration := priceRefreshInterval;
              coins := coins0;
              coingeckoBaseUrl := coingeckoBaseUrl0;
              listenAddress := listenAddress0;
              jwtAuth := jwtauth_New "HS256" "safe-secret" |}
  end.

(** *** [getCoin]

    The loop [for _, coin := range a.coins] with its early return. *)
Fixpoint range_coins (cs : list m.Coin) (coin_id : string) : option m.Coin :=
  match cs with
  | [] => None
  | coin :: rest =>
      if String.eqb (m.Id coin) coin_id then Some coin
      else range_coins rest coin_id
  end.

(** The method has a pointer receiver: it is given the [Api] and hands
    it back together with its two results. *)
Definition getCoin (coin_id : string) (a : Api)
  : (m.Coin * option error) * Api :=
  match range_coins (coins a) coin_id with
  | Some coin => ((coin, None), a)
  | None => ((m.zero, Some (errors_New "Requested coin doesn't exist!")), a)
  end.

(** *** The daemon: [managePrices] and [refreshCoins]

    The upstream server is an oracle: [up k url] is what the [k]-th
    call of [http.Get] of the whole execution (counted from 0) gives
    when it asks for [url]. *)
Definition Upstream : Type := nat -> string -> http.GetResult.

(** What the daemon does to the outside world. *)
Inductive Event : Type :=
| EvLog (msg : string)
| EvGet (url : string) (res : http.GetResult)
| EvSleep (d : time.Duration).

(** The statement about to be executed; the locals of [refreshCoins]
    that are live at a statement travel with it. *)
Inductive Pc : Type :=
| Pc_Log                            (* managePrices: log.Println *)
| Pc_Refresh                        (* managePrices: a.refreshCoins(); url := ... *)
| Pc_Get (url : string)             (* refreshCoins: r, err = http.Get(url) *)
| Pc_RetrySleep (url : string)      (* refreshCoins: time.Sleep(time.Second) *)
| Pc_Decode (r : http.Response)     (* refreshCoins: Decode(&coins) *)
| Pc_Store (coins0 : list m.Coin)   (* refreshCoins: a.coins = coins *)
| Pc_Advance                        (* managePrices: a.currentDate = ... *)
| Pc_DaySleep.                      (* managePrices: time.Sleep(a.dayDuration) *)

(** [attempts] counts the calls of [http.Get] made so far and [ticks]
    the completed iterations of the loop of [managePrices]; [trace]
    lists the events, oldest first. *)
Record Daemon : Type := {
  api : Api;
  pc : Pc;
  attempts : nat;
  ticks : nat;
  trace : list Event
}.

Definition goto (l : Pc) (s : Daemon) : Daemon :=
  {| api := api s; pc := l; attempts := attempts s;
     ticks := ticks s; trace := trace s |}.

Definition emit (e : Event) (s : Daemon) : Daemon :=
  {| api := api s; pc := pc s; attempts := attempts s;
     ticks := ticks s; trace := trace s ++ [e] |}.

Definition attempted (s : Daemon) : Daemon :=
  {| api := api s; pc := pc s; attempts := S (attempts s);
     ticks := ticks s; trace := trace s |}.

Definition ticked (s : Daemon) : Daemon :=
  {| api := api s; pc := pc s; attempts := attempts s;
     ticks := S (ticks s); trace := trace s |}.

Definition with_api (a : Api) (s : Daemon) : Daemon :=
  {| api := a; pc := pc s; attempts := attempts s;
     ticks := ticks s; trace := trace s |}.

Definition set_coins (cs : list m.Coin) (a : Api) : Api :=
  {| db := db a; router := router a; coins := cs;
     currentDate := currentDate a; dayDuration := dayDuration a;
     coingeckoBaseUrl := coingeckoBaseUrl a;
     listenAddress := listenAddress a; jwtAuth := jwtAuth a |}.

Definition set_currentDate (t : time.Time) (a : Api) : Api :=
  {| db := db a; router := router a; coins := coins a;
     currentDate := t; dayDuration := dayDuration a;
     coingeckoBaseUrl := coingeckoBaseUrl a;
     listenAddress := listenAddress a; jwtAuth := jwtAuth a |}.

(** The URL that [refreshCoins] builds from the [Api] it is called on. *)
Definition fetch_url (a : Api) : string :=
  Sprintf_coins (coingeckoBaseUrl a) (time.UnixMilli (currentDate a)).

(** One statement of the daemon. *)
Definition step (up : Upstream) (s : Daemon) : Daemon :=
  let a := api s in
  match pc s with
  | Pc_Log =>
      goto Pc_Refresh
        (emit (EvLog "Starting price management daemon with virtual time simulation...") s)
  | Pc_Refresh =>
      let url := fetch_url a in
      goto (Pc_Get url) s
  | Pc_Get url =>
      let res := up (attempts s) url in
      let s' := emit (EvGet url res) (attempted s) in
      match res with
      | inl r => goto (Pc_Decode r) s'
      | inr _ => goto (Pc_RetrySleep url) s'
      end
  | Pc_RetrySleep url =>
      goto (Pc_Get url) (emit (EvSleep time.Second) s)
  | Pc_Decode r =>
      let coins0 : list m.Coin := [] in
      goto (Pc_Store (fst (json_Decode (http.Body r) coins0))) s
  | Pc_Store coins0 =>
      goto Pc_Advance (with_api (set_coins coins0 a) s)
  | Pc_Advance =>
      goto Pc_DaySleep
        (with_api (set_currentDate (time.Add (currentDate a) (time.Hour * 24)) a) s)
  | Pc_DaySleep =>
      goto Pc_Refresh (ticked (emit (EvSleep (dayDuration a)) s))
  end.

(** [run up n s]: the state after [n] statements. *)
Fixpoint run (up : Upstream) (n : nat) (s : Daemon) : Daemon :=
  match n with
  | O => s
  | S n' => step up (run up n' s)
  end.

(** [go a.managePrices()] in [Run]: the daemon starts on the [Api]
    that [New] built. *)
Definition boot (a : Api) : Daemon :=
  {| api := a; pc := Pc_Log; attempts := O; ticks := O; trace := [] |}.

(** The statements of [refreshCoins], its call included. *)
Definition in_refreshCoins (l : Pc) : bool :=
  match l with
  | Pc_Refresh | Pc_Get _ | Pc_RetrySleep _ | Pc_Decode _ | Pc_Store _ => true
  | Pc_Log | Pc_Advance | Pc_DaySleep => false
  end.

(** The statements of the retry loop. *)
Definition in_retry_loop (url : string) (l : Pc) : Prop :=
  l = Pc_Get url \/ l = Pc_RetrySleep url.

(** The events of [K] failed attempts, each followed by its delay; the
    first of them is attempt number [k0] of the execution. *)
Definition failed_attempts (up : Upstream) (url : string) (k0 K : nat)
  : list Event :=
  flat_map (fun i => [EvGet url (up (k0 + i)%nat url); EvSleep time.Second])
           (seq 0 K).

(** Attempt number [k] of the execution fails at the transport level. *)
Definition fails (up : Upstream) (url : string) (k : nat) : Prop :=
  exists e, up k url = inr e.

(** The state of the retry loop, entered in [s], after [K] failed
    attempts and their delays: about to call [http.Get] again. *)
Definition after_failures (up : Upstream) (url : string) (K : nat)
    (s : Daemon) : Daemon :=
  {| api := api s; pc := Pc_Get url; attempts := attempts s + K;
     ticks := ticks s;
     trace := trace s ++ failed_attempts up url (attempts s) K |}.

(** The state in which [refreshCoins], called in [s], is back in
    [managePrices] after [K] failed attempts and the response [r]. *)
Definition returned (up : Upstream) (url : string) (K : nat)
    (r : http.Response) (s : Daemon) : Daemon :=
  {| api := set_coins (fst (json_Decode (http.Body r) [])) (api s);
     pc := Pc_Advance; attempts := attempts s + K + 1;
     ticks := ticks s;
     trace := trace s ++ failed_attempts up url (attempts s) K
                      ++ [EvGet url (inl r)] |}.

(** [1] while the iteration under way has advanced the clock and is
    still waiting, [0] otherwise. *)
Definition advanced (l : Pc) : nat :=
  match l with Pc_DaySleep => 1 | _ => 0 end.

(** The date [n] days after [t]. *)
Definition days_after (t : time.Time) (n : nat) : time.Time :=
  t + Z.of_nat n * (24 * time.Hour).

(** What ties the clock and the URL of the retry loop to the number
    of completed iterations, for a daemon started at the date [t0]
    with the base URL [base]. *)
Definition tick_inv (t0 : time.Time) (base : string) (s : Daemon) : Prop :=
  currentDate (api s) = days_after t0 (ticks s + advanced (pc s)) /\
  coingeckoBaseUrl (api s) = base /\
  (forall url, in_retry_loop url (pc s) -> url = fetch_url (api s)).

(** *** Measures on the trace and on the run *)

Definition is_log (e : Event) : bool :=
  match e with EvLog _ => true | _ => false end.

Definition is_get (e : Event) : bool :=
  match e with EvGet _ _ => true | _ => false end.

Definition is_answered_get (e : Event) : bool :=
  match e with EvGet _ (inl _) => true | _ => false end.

Definition is_failed_get (e : Event) : bool :=
  match e with EvGet _ (inr _) => true | _ => false end.

Definition is_sleep (d : time.Duration) (e : Event) : bool :=
  match e with EvSleep d' => Z.eqb d' d | _ => false end.

(** How many events of a kind the trace holds. *)
Definition count (f : Event -> bool) (tr : list Event) : nat :=
  List.length (filter f tr).

(** The whole time spent in [time.Sleep]. *)
Fixpoint slept (tr : list Event) : time.Duration :=
  match tr with
  | [] => 0
  | EvSleep d :: tr' => d + slept tr'
  | _ :: tr' => slept tr'
  end.

(** [1] once the iteration under way has its response, [0] before. *)
Definition fetched (l : Pc) : nat :=
  match l with
  | Pc_Decode _ | Pc_Store _ | Pc_Advance | Pc_DaySleep => 1
  | Pc_Log | Pc_Refresh | Pc_Get _ | Pc_RetrySleep _ => 0
  end.

(** [1] while the delay after a failed attempt is still to come. *)
Definition delay_due (l : Pc) : nat :=
  match l with Pc_RetrySleep _ => 1 | _ => 0 end.

(** [1] once the start of the daemon has been logged. *)
Definition started (l : Pc) : nat :=
  match l with Pc_Log => 0 | _ => 1 end.

(** How the trace of a daemon whose day lasts [time.Minute] relates to
    its counters and to the statement it is at. *)
Definition trace_inv (s : Daemon) : Prop :=
  dayDuration (api s) = time.Minute /\
  count is_log (trace s) = started (pc s) /\
  count is_get (trace s) = attempts s /\
  count is_answered_get (trace s) = (ticks s + fetched (pc s))%nat /\
  count is_failed_get (trace s) =
    (count (is_sleep time.Second) (trace s) + delay_due (pc s))%nat /\
  count (is_sleep time.Minute) (trace s) = ticks s.

(** The fields that neither [managePrices] nor [refreshCoins] assigns. *)
Definition same_configuration (a b : Api) : Prop :=
  db a = db b /\ router a = router b /\
  dayDuration a = dayDuration b /\
  coingeckoBaseUrl a = coingeckoBaseUrl b /\
  listenAddress a = listenAddress b /\ jwtAuth a = jwtAuth b.

(** From any attempt on, some later attempt is answered. *)
Definition answers_eventually (up : Upstream) : Prop :=
  forall k url, exists j r, up (k + j)%nat url = inl r.

(** The identifiers of a catalog, in catalog order. *)
Definition ids (cs : list m.Coin) : list string := map m.Id cs.

End Api.

(** ** A concrete setting

    The fields of a coin other than its identifier are reduced to one
    price; the database holds no coin; the response body lists the
    identifiers of the coins it carries, separated by commas, each coin
    priced by its position.  An empty body does not decode: the decoder
    reports the end of the input and leaves its target as it found it. *)
Module Scenario.

#[global] Instance price_only : CoinFields :=
  {| Fields := Z; Fields_zero := 0 |}.

Definition coin (id : string) (price : Z) : m.Coin :=
  {| m.Id := id; m.Rest := price |}.

Fixpoint split_commas (cur body : string) : list string :=
  match body with
  | EmptyString => [cur]
  | String c rest =>
      if Ascii.eqb c ","%char then cur :: split_commas "" rest
      else split_commas (cur ++ String c "")%string rest
  end.

Fixpoint priced (ids : list string) (price : Z) : list m.Coin :=
  match ids with
  | [] => []
  | id :: rest => coin id price :: priced rest (price + 1)
  end.

Definition decode_ids (body : string) (v : list m.Coin)
  : list m.Coin * option error :=
  match body with
  | EmptyString => (v, Some (errors_New "EOF"))
  | _ => (priced (split_commas "" body) 1, None)
  end.

#[global] Instance packages : Packages :=
  {| DB := unit;
     Router := unit;
     JWTAuth := unit;
     database_Init := fun _ => tt;
     db_GetCoins := fun _ => ([], None);
     chi_NewRouter := tt;
     jwtauth_New := fun _ _ => tt;
     json_Decode := decode_ids |}.

Definition ok (code : Z) (body : string) : http.GetResult :=
  inl {| http.StatusCode := code; http.Body := body |}.

Definition refused : http.GetResult :=
  inr (errors_New "connection refused").

(** Every request is answered with the same two coins. *)
Definition always_up : Upstream := fun _ _ => ok 200 "btc,eth".

(** No request is ever answered. *)
Definition always_down : Upstream := fun _ _ => refused.

(** The first [K] requests fail, the later ones are answered. *)
Definition down_then_up (K : nat) : Upstream :=
  fun k _ => if (k <? K)%nat then refused else ok 200 "btc,eth".

(** The first request is answered with an error page, without coins. *)
Definition not_found_page : Upstream := fun _ _ => ok 404 "".

Definition the_api : Api :=
  {| db := tt; router := tt; coins := [];
     currentDate := time.Date 2014 time.January 1 0 0 0 0;
     dayDuration := time.Minute;
     coingeckoBaseUrl := "http://cg";
     listenAddress := ":8080";
     jwtAuth := tt |}.

(** A catalog in which the identifier ["btc"] occurs twice. *)
Definition twice_btc : Api :=
  set_coins [coin "eth" 7; coin "btc" 1; coin "ltc" 3; coin "btc" 2] the_api.

(** A second decoder, which goes on past an element it cannot decode:
    ["?"] in the body stands for such an element, a zero coin is left in
    its place and the error is reported after the last element. *)
Definition decode_past_errors (body : string) (v : list m.Coin)
  : list m.Coin * option error :=
  match body with
  | EmptyString => (v, Some (errors_New "EOF"))
  | _ =>
      let pieces := split_commas "" body in
      (map (fun id => if String.eqb id "?" then m.zero else coin id 1) pieces,
       if existsb (String.eqb "?") pieces
       then Some (errors_New "json: cannot unmarshal number into Go value of type models.Coin")
       else None)
  end.

Definition packages_past_errors : Packages :=
  {| DB := unit;
     Router := unit;
     JWTAuth := unit;
     database_Init := fun _ => tt;
     db_GetCoins := fun _ => ([coin "ltc" 3], None);
     chi_NewRouter := tt;
     jwtauth_New := fun _ _ => tt;
     json_Decode := decode_past_errors |}.

(** The [Api] in that setting, with one coin in its catalog. *)
Definition api_past_errors : @Api price_only packages_past_errors :=
  @Build_Api price_only packages_past_errors
    tt tt [coin "ltc" 3]
    (time.Date 2014 time.January 1 0 0 0 0) time.Minute
    "http://cg" ":8080" tt.

(** Every request is answered with a body whose second element does
    not decode. *)
Definition second_element_broken : Upstream :=
  fun _ _ => ok 200 "btc,?,eth".

(** Every third request is answered, the others fail. *)
Definition every_third : Upstream :=
  fun k _ => if (k mod 3 =? 2)%nat then ok 200 "btc,eth" else refused.

(** A catalog without repeated identifiers. *)
Definition three_coins : Api :=
  set_coins [coin "eth" 7; coin "btc" 1; coin "ltc" 3] the_api.

End Scenario.

(** * Properties *)

Example format_int_pos : format_int 1388534400000 = "1388534400000".
Proof. reflexivity. Qed.

Example format_int_neg : format_int (-42) = "-42".
Proof. reflexivity. Qed.

Example Date_2014 :
  time.Date 2014 time.January 1 0 0 0 0 = 1388534400 * time.Second.
Proof. reflexivity. Qed.

Example New_scenario : New ":8080" "http://cg" = Some Scenario.the_api.
Proof. reflexivity. Qed.

(** ** The lookup *)
Section GetCoinFacts.

Context {F : CoinFields} {P : Packages}.

Lemma range_coins_first (pre post : list m.Coin) (c : m.Coin) (id : string) :
  m.Id c = id ->
  (forall x, In x pre -> m.Id x <> id) ->
  range_coins (pre ++ c :: post) id = Some c.
Proof.
  intros Hc. induction pre as [|x pre IH]; intros Hpre; simpl.
  - rewrite Hc, String.eqb_refl. reflexivity.
  - destruct (String.eqb_spec (m.Id x) id) as [E|_].
    + exfalso. apply (Hpre x); [left; reflexivity | exact E].
    + apply IH. intros y Hy. apply Hpre. right. exact Hy.
Qed.

Lemma range_coins_absent (cs : list m.Coin) (id : string) :
  (forall c, In c cs -> m.Id c <> id) <-> range_coins cs id = None.
Proof.
  induction cs as [|x cs IH]; simpl.
  - split; [reflexivity | intros _ c []].
  - destruct (String.eqb_spec (m.Id x) id) as [E|N].
    + split; [|discriminate].
      intros H. exfalso. apply (H x); [left; reflexivity | exact E].
    + rewrite <- IH. split.
      * intros H c Hc. apply H. right. exact Hc.
      * intros H c [<-|Hc]; [exact N | apply H; exact Hc].
Qed.

Lemma first_occurrence (cs : list m.Coin) (id : string) :
  (exists c, In c cs /\ m.Id c = id) ->
  exists pre c post,
    cs = pre ++ c :: post /\ m.Id c = id /\
    (forall x, In x pre -> m.Id x <> id).
Proof.
  induction cs as [|x cs IH]; intros (c & Hin & Hc).
  - destruct Hin.
  - destruct (String.eqb_spec (m.Id x) id) as [E|N].
    + exists [], x, cs. repeat split; [exact E | intros y []].
    + destruct Hin as [->|Hin]; [contradiction|].
      destruct IH as (pre & c' & post & -> & Hc' & Hpre);
        [exists c; split; assumption|].
      exists (x :: pre), c', post. repeat split; [exact Hc'|].
      intros y [<-|Hy]; [exact N | apply Hpre; exact Hy].
Qed.

(** C2.  For every catalog and every identifier: when some coin of the
    catalog has the identifier, [getCoin] returns the first such coin
    in catalog order together with the [nil] error; when no coin has
    it, [getCoin] returns a non-[nil] error. *)
Theorem getCoin_first_or_error (a : Api) (id : string) :
  ((exists c, In c (coins a) /\ m.Id c = id) ->
   exists pre c post,
     coins a = pre ++ c :: post /\ m.Id c = id /\
     (forall x, In x pre -> m.Id x <> id) /\
     fst (getCoin id a) = (c, None))
  /\
  ((forall c, In c (coins a) -> m.Id c <> id) ->
   exists e, snd (fst (getCoin id a)) = Some e).
Proof.
  split.
  - intros Hex.
    destruct (first_occurrence _ _ Hex) as (pre & c & post & E & Hc & Hpre).
    exists pre, c, post. repeat split; try assumption.
    unfold getCoin. rewrite E, (range_coins_first pre post c id Hc Hpre).
    reflexivity.
  - intros Habs. apply range_coins_absent in Habs.
    unfold getCoin. rewrite Habs. simpl. eexists. reflexivity.
Qed.

(** C8, as the code has it.  When an identifier occurs twice in the
    catalog, [getCoin] resolves it to the earlier of the two entries,
    provided no entry before that one carries the identifier: the first
    match wins. *)
Theorem getCoin_first_match_wins
    (a : Api) (id : string) (pre mid post : list m.Coin) (c1 c2 : m.Coin) :
  coins a = pre ++ c1 :: mid ++ c2 :: post ->
  m.Id c1 = id ->
  m.Id c2 = id ->
  (forall x, In x pre -> m.Id x <> id) ->
  getCoin id a = ((c1, None), a).
Proof.
  intros E H1 _ Hpre. unfold getCoin.
  rewrite E, (range_coins_first pre (mid ++ c2 :: post) c1 id H1 Hpre).
  reflexivity.
Qed.

(** C10.  For an identifier that no coin of the catalog carries,
    [getCoin] returns the coin whose fields are all zero together with
    the error whose message is "Requested coin doesn't exist!"; and,
    whatever the identifier, [getCoin] hands back the [Api] exactly as
    it received it. *)
Theorem getCoin_absent_zero_coin (a : Api) (id : string) :
  ((forall c, In c (coins a) -> m.Id c <> id) ->
   fst (getCoin id a) =
     ({| m.Id := ""; m.Rest := Fields_zero |},
      Some (errors_New "Requested coin doesn't exist!")) /\
   (forall e, snd (fst (getCoin id a)) = Some e ->
              error_message e = "Requested coin doesn't exist!"))
  /\ snd (getCoin id a) = a.
Proof.
  split.
  - intros Habs. apply range_coins_absent in Habs.
    unfold getCoin. rewrite Habs. simpl. split; [reflexivity|].
    intros e [= <-]. reflexivity.
  - unfold getCoin. destruct (range_coins (coins a) id); reflexivity.
Qed.

End GetCoinFacts.

(** C2 at work: ["btc"] is found at its first position, ["doge"] is not
    found. *)
Lemma getCoin_first_or_error_witness :
  (exists pre c post,
     coins Scenario.twice_btc = pre ++ c :: post /\ m.Id c = "btc" /\
     (forall x, In x pre -> m.Id x <> "btc") /\
     fst (getCoin "btc" Scenario.twice_btc) = (c, None))
  /\ (exists e, snd (fst (getCoin "doge" Scenario.twice_btc)) = Some e).
Proof.
  split.
  - apply (proj1 (getCoin_first_or_error Scenario.twice_btc "btc")).
    exists (Scenario.coin "btc" 1). split; [simpl; tauto | reflexivity].
  - apply (proj2 (getCoin_first_or_error Scenario.twice_btc "doge")).
    intros c Hc. simpl in Hc.
    repeat (destruct Hc as [<-|Hc]; [discriminate|]). destruct Hc.
Defined.

(** C8 as the specification words it fails: with ["btc"] at the second
    and at the fourth position, the lookup does not give the later
    entry. *)
Lemma getCoin_last_write_wins_counterexample :
  coins Scenario.twice_btc =
    [Scenario.coin "eth" 7] ++ Scenario.coin "btc" 1
      :: [Scenario.coin "ltc" 3] ++ Scenario.coin "btc" 2 :: [] /\
  fst (fst (getCoin "btc" Scenario.twice_btc)) <> Scenario.coin "btc" 2.
Proof.
  split; [reflexivity | discriminate].
Qed.

Lemma getCoin_first_match_wins_witness :
  getCoin "btc" Scenario.twice_btc =
    ((Scenario.coin "btc" 1, None), Scenario.twice_btc).
Proof.
  apply (getCoin_first_match_wins Scenario.twice_btc "btc"
           [Scenario.coin "eth" 7] [Scenario.coin "ltc" 3] []
           (Scenario.coin "btc" 1) (Scenario.coin "btc" 2)).
  - reflexivity.
  - reflexivity.
  - reflexivity.
  - intros x [<-|[]]. discriminate.
Defined.

Lemma getCoin_absent_zero_coin_witness :
  fst (getCoin "doge" Scenario.twice_btc) =
    (Scenario.coin "" 0, Some (errors_New "Requested coin doesn't exist!")) /\
  snd (getCoin "doge" Scenario.twice_btc) = Scenario.twice_btc.
Proof.
  split.
  - apply (proj1 (getCoin_absent_zero_coin Scenario.twice_btc "doge")).
    intros c Hc. simpl in Hc.
    repeat (destruct Hc as [<-|Hc]; [discriminate|]). destruct Hc.
  - apply (proj2 (getCoin_absent_zero_coin Scenario.twice_btc "doge")).
Defined.

(** ** The daemon *)
Section DaemonFacts.

Context {F : CoinFields} {P : Packages}.

Variable up : Upstream.

Lemma run_first (n : nat) (s : Daemon) :
  run up (S n) s = run up n (step up s).
Proof.
  induction n as [|n IH]; [reflexivity|].
  change (run up (S (S n)) s) with (step up (run up (S n) s)).
  rewrite IH. reflexivity.
Qed.

Lemma run_add (n k : nat) (s : Daemon) :
  run up (n + k) s = run up k (run up n s).
Proof.
  induction k as [|k IH].
  - rewrite Nat.add_0_r. reflexivity.
  - rewrite Nat.add_succ_r. simpl. rewrite IH. reflexivity.
Qed.

(** *** One statement at a time *)

Lemma step_Refresh (s : Daemon) :
  pc s = Pc_Refresh ->
  step up s = goto (Pc_Get (fetch_url (api s))) s.
Proof. intros E. unfold step. rewrite E. reflexivity. Qed.

Lemma step_Get_ok (s : Daemon) (url : string) (r : http.Response) :
  pc s = Pc_Get url ->
  up (attempts s) url = inl r ->
  step up s = goto (Pc_Decode r) (emit (EvGet url (inl r)) (attempted s)).
Proof. intros E R. unfold step. rewrite E. cbv zeta. rewrite R. reflexivity. Qed.

Lemma step_Get_failed (s : Daemon) (url : string) (e : error) :
  pc s = Pc_Get url ->
  up (attempts s) url = inr e ->
  step up s = goto (Pc_RetrySleep url) (emit (EvGet url (inr e)) (attempted s)).
Proof. intros E R. unfold step. rewrite E. cbv zeta. rewrite R. reflexivity. Qed.

Lemma step_RetrySleep (s : Daemon) (url : string) :
  pc s = Pc_RetrySleep url ->
  step up s = goto (Pc_Get url) (emit (EvSleep time.Second) s).
Proof. intros E. unfold step. rewrite E. reflexivity. Qed.

Lemma step_Decode (s : Daemon) (r : http.Response) :
  pc s = Pc_Decode r ->
  step up s = goto (Pc_Store (fst (json_Decode (http.Body r) []))) s.
Proof. intros E. unfold step. rewrite E. reflexivity. Qed.

Lemma step_Store (s : Daemon) (cs : list m.Coin) :
  pc s = Pc_Store cs ->
  step up s = goto Pc_Advance (with_api (set_coins cs (api s)) s).
Proof. intros E. unfold step. rewrite E. reflexivity. Qed.

(** The catalog is assigned by the last statement of [refreshCoins]
    and by no other. *)
Lemma step_coins (s : Daemon) :
  (forall cs, pc s <> Pc_Store cs) ->
  coins (api (step up s)) = coins (api s).
Proof.
  intros H. unfold step.
  destruct (pc s) as [| |url|url|r|cs| |] eqn:E; try reflexivity.
  - cbv zeta. destruct (up (attempts s) url); reflexivity.
  - exfalso. apply (H cs). reflexivity.
Qed.

(** A statement [Pc_Store] is reached from [Pc_Decode] only, and
    [Pc_Decode] from a call of [http.Get] that gave a response. *)
Lemma step_to_Store (s : Daemon) (cs : list m.Coin) :
  pc (step up s) = Pc_Store cs ->
  exists r, pc s = Pc_Decode r /\ cs = fst (json_Decode (http.Body r) []).
Proof.
  unfold step.
  destruct (pc s) as [| |url|url|r|cs'| |] eqn:E; try discriminate.
  - cbv zeta. destruct (up (attempts s) url); discriminate.
  - simpl. intros [= <-]. exists r. split; reflexivity.
Qed.

Lemma step_to_Decode (s : Daemon) (r : http.Response) :
  pc (step up s) = Pc_Decode r ->
  exists url, pc s = Pc_Get url /\ up (attempts s) url = inl r.
Proof.
  unfold step.
  destruct (pc s) as [| |url|url|r'|cs'| |] eqn:E; try discriminate.
  cbv zeta. destruct (up (attempts s) url) as [r0|e] eqn:R; try discriminate.
  simpl. intros [= <-]. exists url. split; [reflexivity | exact R].
Qed.

(** The clock never goes back in one statement. *)
Lemma step_currentDate_le (s : Daemon) :
  currentDate (api s) <= currentDate (api (step up s)).
Proof.
  unfold step.
  destruct (pc s) as [| |url|url|r|cs| |]; simpl; try lia.
  - destruct (up (attempts s) url); simpl; lia.
  - unfold time.Add. vm_compute (time.Hour * 24). lia.
Qed.

Lemma run_currentDate_le (s : Daemon) (n k : nat) :
  (n <= k)%nat ->
  currentDate (api (run up n s)) <= currentDate (api (run up k s)).
Proof.
  induction 1 as [|k _ IH]; [lia|].
  simpl. pose proof (step_currentDate_le (run up k s)). lia.
Qed.

(** *** The retry loop *)

Lemma failed_attempts_S (url : string) (k0 K : nat) :
  failed_attempts up url k0 (S K) =
    failed_attempts up url k0 K
      ++ [EvGet url (up (k0 + K)%nat url); EvSleep time.Second].
Proof.
  unfold failed_attempts. rewrite seq_S, flat_map_app. reflexivity.
Qed.

Lemma retry_loop_exact (url : string) (K : nat) (s : Daemon) :
  pc s = Pc_Get url ->
  (forall i, (i < K)%nat -> fails up url (attempts s + i)) ->
  run up (2 * K) s = after_failures up url K s.
Proof.
  intros Hpc. induction K as [|K IH]; intros Hf.
  - destruct s as [a l k t tr]. simpl in Hpc. subst l.
    unfold after_failures, failed_attempts. simpl.
    rewrite Nat.add_0_r, app_nil_r. reflexivity.
  - replace (2 * S K)%nat with (2 * K + 2)%nat by lia.
    rewrite run_add, IH by (intros i Hi; apply Hf; lia).
    destruct (Hf K (Nat.lt_succ_diag_r K)) as [e He].
    simpl run.
    rewrite (step_Get_failed (after_failures up url K s) url e)
      by (try reflexivity; exact He).
    rewrite (step_RetrySleep _ url) by reflexivity.
    unfold after_failures, goto, emit, attempted. simpl.
    rewrite failed_attempts_S, He, <- !app_assoc. simpl.
    f_equal. lia.
Qed.

Lemma retry_loop_prefix (url : string) (K n : nat) (s : Daemon) :
  pc s = Pc_Get url ->
  (forall i, (i < K)%nat -> fails up url (attempts s + i)) ->
  (n <= 2 * K)%nat ->
  in_retry_loop url (pc (run up n s)) /\
  api (run up n s) = api s /\
  ticks (run up n s) = ticks s.
Proof.
  intros Hpc Hf Hn.
  destruct (Nat.Even_or_Odd n) as [[j ->]|[j ->]].
  - rewrite (retry_loop_exact url j s Hpc) by (intros i Hi; apply Hf; lia).
    repeat split. left. reflexivity.
  - rewrite run_add,
      (retry_loop_exact url j s Hpc) by (intros i Hi; apply Hf; lia).
    destruct (Hf j ltac:(lia)) as [e He].
    simpl run.
    rewrite (step_Get_failed (after_failures up url j s) url e)
      by (try reflexivity; exact He).
    repeat split. right. reflexivity.
Qed.

(** [refreshCoins] from its call to its return, when the first [K]
    attempts fail and the next one gives the response [r]. *)
Lemma refreshCoins_returns (K : nat) (r : http.Response) (s : Daemon) :
  pc s = Pc_Refresh ->
  (forall i, (i < K)%nat -> fails up (fetch_url (api s)) (attempts s + i)) ->
  up (attempts s + K)%nat (fetch_url (api s)) = inl r ->
  run up (2 * K + 4) s = returned up (fetch_url (api s)) K r s.
Proof.
  intros Hpc Hf Hr.
  replace (2 * K + 4)%nat with (S (2 * K + 3)) by lia.
  rewrite run_first, (step_Refresh s Hpc), run_add.
  rewrite (retry_loop_exact (fetch_url (api s)) K) by (try reflexivity; exact Hf).
  set (s2 := after_failures _ _ _ _).
  rewrite run_first,
    (step_Get_ok s2 (fetch_url (api s)) r) by (try reflexivity; exact Hr).
  rewrite run_first, (step_Decode _ r) by reflexivity.
  rewrite run_first,
    (step_Store _ (fst (json_Decode (http.Body r) []))) by reflexivity.
  subst s2.
  unfold returned, after_failures, goto, emit, attempted, with_api. simpl.
  rewrite <- app_assoc. f_equal. lia.
Qed.

(** Before that, [refreshCoins] has not returned and the catalog is
    the one it was called with. *)
Lemma refreshCoins_running (K : nat) (r : http.Response) (s : Daemon) (n : nat) :
  pc s = Pc_Refresh ->
  (forall i, (i < K)%nat -> fails up (fetch_url (api s)) (attempts s + i)) ->
  up (attempts s + K)%nat (fetch_url (api s)) = inl r ->
  (n < 2 * K + 4)%nat ->
  in_refreshCoins (pc (run up n s)) = true /\
  coins (api (run up n s)) = coins (api s).
Proof.
  intros Hpc Hf Hr Hn.
  destruct n as [|n]; [simpl; rewrite Hpc; split; reflexivity|].
  rewrite run_first, (step_Refresh s Hpc).
  set (s1 := goto (Pc_Get (fetch_url (api s))) s).
  assert (H1 : pc s1 = Pc_Get (fetch_url (api s))) by reflexivity.
  destruct (Nat.le_gt_cases n (2 * K)) as [Hle|Hgt].
  - destruct (retry_loop_prefix (fetch_url (api s)) K n s1 H1 Hf Hle)
      as ([-> | ->] & -> & _); split; reflexivity.
  - assert (Hs : run up (2 * K) s1 = after_failures up (fetch_url (api s)) K s1)
      by (apply retry_loop_exact; [exact H1 | exact Hf]).
    assert (n = 2 * K + 1 \/ n = 2 * K + 2)%nat as [-> | ->] by lia;
      rewrite run_add, Hs, run_first,
        (step_Get_ok (after_failures up (fetch_url (api s)) K s1)
           (fetch_url (api s)) r) by (try reflexivity; exact Hr).
    + split; reflexivity.
    + rewrite run_first, (step_Decode _ r) by reflexivity.
      split; reflexivity.
Qed.

(** *** The clock and the completed iterations *)

Lemma days_after_S (t0 : time.Time) (n : nat) :
  time.Add (days_after t0 n) (time.Hour * 24) = days_after t0 (S n).
Proof.
  unfold time.Add, days_after. rewrite Nat2Z.inj_succ. lia.
Qed.

Lemma tick_inv_step (t0 : time.Time) (base : string) (s : Daemon) :
  tick_inv t0 base s -> tick_inv t0 base (step up s).
Proof.
  intros (Hd & Hb & Hu). unfold tick_inv, step.
  destruct (pc s) as [| |url|url|r|cs| |] eqn:E; simpl in *.
  - repeat split; try assumption. intros u [H|H]; discriminate.
  - repeat split; try assumption.
    intros u [[= <-]|H]; [reflexivity | discriminate].
  - specialize (Hu url (or_introl eq_refl)).
    destruct (up (attempts s) url); simpl; repeat split; try assumption.
    + intros u [H|H]; discriminate.
    + intros u [H|[= <-]]; [discriminate | exact Hu].
  - specialize (Hu url (or_intror eq_refl)).
    repeat split; try assumption.
    intros u [[= <-]|H]; [exact Hu | discriminate].
  - repeat split; try assumption. intros u [H|H]; discriminate.
  - repeat split; try assumption. intros u [H|H]; discriminate.
  - repeat split; try assumption.
    + rewrite Hd, days_after_S. f_equal. lia.
    + intros u [H|H]; discriminate.
  - repeat split; try assumption.
    + rewrite Hd. f_equal. lia.
    + intros u [H|H]; discriminate.
Qed.

Lemma tick_inv_run (a : Api) (n : nat) :
  tick_inv (currentDate a) (coingeckoBaseUrl a) (run up n (boot a)).
Proof.
  induction n as [|n IH]; [|apply tick_inv_step; exact IH].
  unfold tick_inv, boot, days_after. simpl. repeat split; [lia|].
  intros u [H|H]; discriminate.
Qed.

Lemma New_fields (la base : string) (a : Api) :
  New la base = Some a ->
  currentDate a = time.Date 2014 time.January 1 0 0 0 0 /\
  coingeckoBaseUrl a = base /\
  dayDuration a = time.Minute /\
  coins a = fst (db_GetCoins (database_Init "api.db")).
Proof.
  unfold New. destruct (db_GetCoins (database_Init "api.db")) as [cs [e|]];
    [discriminate|].
  intros [= <-]. repeat split.
Qed.

(** When the upstream answers every request, each iteration takes six
    statements, so every number of completed iterations is reached. *)
Lemma every_tick_is_reached (a : Api) (N : nat) :
  (forall k url, exists r, up k url = inl r) ->
  pc (run up (1 + 6 * N) (boot a)) = Pc_Refresh /\
  ticks (run up (1 + 6 * N) (boot a)) = N.
Proof.
  intros Hup. induction N as [|N [IHpc IHt]]; [split; reflexivity|].
  replace (1 + 6 * S N)%nat with ((1 + 6 * N) + 4 + 2)%nat by lia.
  rewrite run_add, run_add.
  set (s := run up (1 + 6 * N) (boot a)) in *.
  destruct (Hup (attempts s + 0)%nat (fetch_url (api s))) as [r Hr].
  change 4%nat with (2 * 0 + 4)%nat.
  rewrite (refreshCoins_returns 0 r s IHpc) by (try exact Hr; intros i Hi; lia).
  simpl. split; [reflexivity | f_equal; exact IHt].
Qed.

(** *** [managePrices] and [refreshCoins] over a run *)

(** C1.  Whatever the upstream does and however many attempts a fetch
    takes, in every state of the daemon started on the [Api] built by
    [New] the current date is 2014-01-01 UTC plus exactly one day per
    completed iteration of the loop, plus the day of the iteration
    under way once its advance is done and it is waiting; so with [N]
    iterations completed and the next one not yet advanced the date is
    the initial date plus [N] days.  And the date never moves back
    from one state of the execution to a later one. *)
Theorem clock_one_day_per_tick (la base : string) (a : Api) (n : nat) :
  New la base = Some a ->
  let s := run up n (boot a) in
  let t0 := time.Date 2014 time.January 1 0 0 0 0 in
  currentDate (api s) = days_after t0 (ticks s + advanced (pc s)) /\
  (pc s <> Pc_DaySleep -> currentDate (api s) = days_after t0 (ticks s)) /\
  (forall k, (n <= k)%nat ->
             currentDate (api s) <= currentDate (api (run up k (boot a)))).
Proof.
  intros HN s t0.
  destruct (New_fields la base a HN) as (Hd & _).
  destruct (tick_inv_run a n) as (Hinv & _).
  fold s in Hinv. rewrite Hd in Hinv. fold t0 in Hinv.
  repeat split.
  - exact Hinv.
  - intros Hpc. rewrite Hinv. f_equal.
    destruct (pc s); simpl; try lia. contradiction.
  - intros k Hk. apply run_currentDate_le. exact Hk.
Qed.

(** C3.  Let [refreshCoins] be called in a state [s].  When its first
    [K] attempts fail at the transport level and the next one gives a
    response, it returns after [2K+4] statements and not before,
    having called [http.Get] exactly [K+1] times, with a delay of
    [time.Second] after each failed attempt and nothing else in
    between.  When every attempt fails, it never returns: it stays in
    its retry loop and the number of attempts grows without bound. *)
Theorem refreshCoins_retries_until_success (s : Daemon) :
  pc s = Pc_Refresh ->
  let url := fetch_url (api s) in
  (forall K r,
      (forall i, (i < K)%nat -> fails up url (attempts s + i)) ->
      up (attempts s + K)%nat url = inl r ->
      let s' := run up (2 * K + 4) s in
      pc s' = Pc_Advance /\
      attempts s' = (attempts s + (K + 1))%nat /\
      trace s' = trace s ++ failed_attempts up url (attempts s) K
                        ++ [EvGet url (inl r)] /\
      (forall n, (n < 2 * K + 4)%nat ->
                 in_refreshCoins (pc (run up n s)) = true))
  /\
  ((forall i, fails up url (attempts s + i)) ->
   forall n,
     in_refreshCoins (pc (run up n s)) = true /\
     in_retry_loop url (pc (run up (S n) s)) /\
     attempts (run up (1 + 2 * n) s) = (attempts s + n)%nat).
Proof.
  intros Hpc url. split.
  - intros K r Hf Hr s'. subst s'.
    rewrite (refreshCoins_returns K r s Hpc Hf Hr).
    repeat split.
    + simpl. lia.
    + intros n Hn. apply (refreshCoins_running K r s n Hpc Hf Hr Hn).
  - intros Hf n.
    set (s1 := goto (Pc_Get url) s).
    assert (H1 : pc s1 = Pc_Get url) by reflexivity.
    assert (Hloop : forall k, in_retry_loop url (pc (run up (S k) s))).
    { intros k. rewrite run_first, (step_Refresh s Hpc). fold url s1.
      apply (retry_loop_prefix url k k s1 H1); [|lia].
      intros i _. apply Hf. }
    repeat split.
    + destruct n as [|n]; [simpl; rewrite Hpc; reflexivity|].
      destruct (Hloop n) as [-> | ->]; reflexivity.
    + apply Hloop.
    + change (1 + 2 * n)%nat with (S (2 * n)).
      rewrite run_first, (step_Refresh s Hpc). fold url s1.
      rewrite (retry_loop_exact url n s1 H1) by (intros i _; apply Hf).
      reflexivity.
Qed.

(** C4.  In the daemon started on the [Api] built by [New base],
    whenever [http.Get] is about to be called during iteration [N]
    (counted from 1, so after [N-1] completed iterations), the URL
    requested is [base], then "/coins/", then the decimal count of
    milliseconds from the Unix epoch to 2014-01-01 UTC plus [N-1]
    days; and the call is the next event of the trace. *)
Theorem fetch_url_of_tick (la base : string) (a : Api) (n : nat) (url : string) :
  New la base = Some a ->
  let s := run up n (boot a) in
  pc s = Pc_Get url ->
  let N := S (ticks s) in
  url = Sprintf_coins base
          (time.UnixMilli
             (days_after (time.Date 2014 time.January 1 0 0 0 0) (N - 1))) /\
  trace (run up (S n) (boot a)) =
    trace s ++ [EvGet url (up (attempts s) url)].
Proof.
  intros HN s Hpc N.
  destruct (New_fields la base a HN) as (Hd & Hb & _).
  destruct (tick_inv_run a n) as (Hdate & Hbase & Hurl).
  fold s in Hdate, Hbase, Hurl. split.
  - rewrite (Hurl url (or_introl Hpc)). unfold fetch_url.
    rewrite Hbase, Hb, Hdate, Hd, Hpc. subst N. simpl advanced.
    rewrite Nat.add_0_r, Nat.sub_succ, Nat.sub_0_r. reflexivity.
  - change (run up (S n) (boot a)) with (step up s).
    unfold step. rewrite Hpc. cbv zeta.
    destruct (up (attempts s) url); reflexivity.
Qed.

(** C6.  Let [refreshCoins] be called in a state [s].  As long as its
    attempts fail, through every failed attempt and every delay, the
    catalog is the one of [s]: the snapshot stored last, or the one
    [New] loaded when none was stored yet.  And a statement that
    changes the catalog is the assignment that ends [refreshCoins],
    two statements after a call of [http.Get] that gave a response. *)
Theorem catalog_kept_while_fetch_fails (s : Daemon) :
  pc s = Pc_Refresh ->
  let url := fetch_url (api s) in
  (forall K,
      (forall i, (i < K)%nat -> fails up url (attempts s + i)) ->
      forall n, (n <= 2 * K + 1)%nat ->
                coins (api (run up n s)) = coins (api s))
  /\
  (forall n,
      coins (api (run up (S n) s)) <> coins (api (run up n s)) ->
      exists k r u,
        n = S (S k) /\
        pc (run up k s) = Pc_Get u /\
        up (attempts (run up k s)) u = inl r /\
        pc (run up (S k) s) = Pc_Decode r /\
        pc (run up n s) = Pc_Store (fst (json_Decode (http.Body r) []))).
Proof.
  intros Hpc url. split.
  - intros K Hf n Hn.
    destruct n as [|n]; [reflexivity|].
    rewrite run_first, (step_Refresh s Hpc). fold url.
    set (s1 := goto (Pc_Get url) s).
    destruct (retry_loop_prefix url K n s1 eq_refl Hf ltac:(lia))
      as (_ & -> & _).
    reflexivity.
  - intros n Hch.
    assert (Hst : exists cs, pc (run up n s) = Pc_Store cs).
    { destruct (pc (run up n s)) as [| |u|u|r|cs| |] eqn:E;
        try (exfalso; apply Hch; apply step_coins;
             intros cs; rewrite E; discriminate).
      exists cs. reflexivity. }
    destruct Hst as [cs Hst].
    destruct n as [|n]; [simpl in Hst; congruence|].
    destruct (step_to_Store (run up n s) cs Hst) as (r & Hdec & ->).
    destruct n as [|k]; [simpl in Hdec; congruence|].
    destruct (step_to_Decode (run up k s) r Hdec) as (u & Hget & Hr).
    exists k, r, u. repeat split; assumption.
Qed.

(** C7, as the code has it.  Let [refreshCoins] be called in a state
    [s] and let the response it obtains have a body on which the
    decoder fails, with the error [e] and the value [cs] left in the
    target.  Then
    [refreshCoins] returns as it does after a successful decode: no
    further attempt, no delay, nothing in the trace after the call
    that gave the response, and the new catalog is [cs], whatever the
    decoder left in a target that was empty before; the iteration
    then advances the clock and completes. *)
Theorem decode_error_is_ignored
    (s : Daemon) (K : nat) (r : http.Response) (cs : list m.Coin) (e : error) :
  pc s = Pc_Refresh ->
  let url := fetch_url (api s) in
  (forall i, (i < K)%nat -> fails up url (attempts s + i)) ->
  up (attempts s + K)%nat url = inl r ->
  json_Decode (http.Body r) [] = (cs, Some e) ->
  let s' := run up (2 * K + 4) s in
  pc s' = Pc_Advance /\
  coins (api s') = cs /\
  attempts s' = (attempts s + (K + 1))%nat /\
  trace s' = trace s ++ failed_attempts up url (attempts s) K
                    ++ [EvGet url (inl r)] /\
  pc (run up (2 * K + 6) s) = Pc_Refresh /\
  ticks (run up (2 * K + 6) s) = S (ticks s).
Proof.
  intros Hpc url Hf Hr Hdec s'.
  replace (2 * K + 6)%nat with ((2 * K + 4) + 2)%nat by lia.
  rewrite run_add. fold s'. subst s'.
  rewrite (refreshCoins_returns K r s Hpc Hf Hr).
  unfold returned. simpl. rewrite Hdec. simpl.
  repeat split. lia.
Qed.

(** C9.  Let [refreshCoins] be called in a state [s] and let its first
    attempt give a response, of whatever status code.  Then it returns
    after that single attempt, without any delay, and the catalog is
    what the decoder makes of the body of that response.  And a call
    of [http.Get] is followed by the delay and a new attempt exactly
    when it gave a transport error. *)
Theorem any_status_code_ends_the_fetch (s : Daemon) :
  (pc s = Pc_Refresh ->
   forall code body,
     let url := fetch_url (api s) in
     let r := {| http.StatusCode := code; http.Body := body |} in
     up (attempts s) url = inl r ->
     let s' := run up 4 s in
     pc s' = Pc_Advance /\
     attempts s' = S (attempts s) /\
     trace s' = trace s ++ [EvGet url (inl r)] /\
     coins (api s') = fst (json_Decode body []))
  /\
  (forall u, pc s = Pc_Get u ->
             (pc (step up s) = Pc_RetrySleep u <->
              exists e, up (attempts s) u = inr e)).
Proof.
  split.
  - intros Hpc code body url r Hr s'. subst s'.
    change 4%nat with (2 * 0 + 4)%nat.
    rewrite (refreshCoins_returns 0 r s Hpc)
      by (try (rewrite Nat.add_0_r; exact Hr); intros i Hi; lia).
    unfold returned. simpl. repeat split. lia.
  - intros u Hpc. unfold step. rewrite Hpc. cbv zeta.
    destruct (up (attempts s) u) as [r|e]; simpl; split.
    + discriminate.
    + intros [e He]. discriminate.
    + intros _. exists e. reflexivity.
    + reflexivity.
Qed.

End DaemonFacts.

(** ** The daemon in the concrete setting *)

(** The daemon on [Scenario.the_api], about to call [refreshCoins] for
    the first time. *)
Example first_call (up : Upstream) :
  run up 1 (boot Scenario.the_api) =
    {| api := Scenario.the_api; pc := Pc_Refresh; attempts := 0; ticks := 0;
       trace := [EvLog "Starting price management daemon with virtual time simulation..."] |}.
Proof. reflexivity. Qed.

(** The scenario of the specification: with an upstream that always
    answers with the coins btc and eth, after one iteration the date is
    2014-01-02, ["btc"] is found and ["ltc"] is not. *)
Example one_tick_scenario :
  let s := run Scenario.always_up 7 (boot Scenario.the_api) in
  ticks s = 1%nat /\
  currentDate (api s) = time.Date 2014 time.January 2 0 0 0 0 /\
  fst (getCoin "btc" (api s)) = (Scenario.coin "btc" 1, None) /\
  fst (getCoin "ltc" (api s)) =
    (m.zero, Some (errors_New "Requested coin doesn't exist!")).
Proof. repeat split. Qed.

Lemma clock_one_day_per_tick_witness :
  New ":8080" "http://cg" = Some Scenario.the_api /\
  let s := run Scenario.always_up 13 (boot Scenario.the_api) in
  let t0 := time.Date 2014 time.January 1 0 0 0 0 in
  currentDate (api s) = days_after t0 (ticks s + advanced (pc s)) /\
  (pc s <> Pc_DaySleep -> currentDate (api s) = days_after t0 (ticks s)) /\
  (forall k, (13 <= k)%nat ->
             currentDate (api s)
             <= currentDate (api (run Scenario.always_up k (boot Scenario.the_api)))).
Proof.
  split; [reflexivity|].
  apply (clock_one_day_per_tick Scenario.always_up ":8080" "http://cg"
           Scenario.the_api 13).
  reflexivity.
Defined.

Lemma refreshCoins_retries_until_success_witness :
  (let up := Scenario.down_then_up 2 in
   let s' := run up 8 (run up 1 (boot Scenario.the_api)) in
   pc s' = Pc_Advance /\
   attempts s' = 3%nat /\
   trace s' =
     [EvLog "Starting price management daemon with virtual time simulation...";
      EvGet "http://cg/coins/1388534400000" Scenario.refused;
      EvSleep 1000000000;
      EvGet "http://cg/coins/1388534400000" Scenario.refused;
      EvSleep 1000000000;
      EvGet "http://cg/coins/1388534400000" (Scenario.ok 200 "btc,eth")] /\
   (forall n, (n < 8)%nat ->
      in_refreshCoins (pc (run up n (run up 1 (boot Scenario.the_api)))) = true))
  /\
  (let up := Scenario.always_down in
   forall n,
     in_refreshCoins (pc (run up n (run up 1 (boot Scenario.the_api)))) = true /\
     in_retry_loop "http://cg/coins/1388534400000"
       (pc (run up (S n) (run up 1 (boot Scenario.the_api)))) /\
     attempts (run up (1 + 2 * n) (run up 1 (boot Scenario.the_api))) = n).
Proof.
  split.
  - apply (proj1 (refreshCoins_retries_until_success (Scenario.down_then_up 2)
                    (run (Scenario.down_then_up 2) 1 (boot Scenario.the_api))
                    eq_refl) 2%nat).
    + intros [|[|i]] Hi; [eexists; reflexivity | eexists; reflexivity | lia].
    + reflexivity.
  - apply (proj2 (refreshCoins_retries_until_success Scenario.always_down
                    (run Scenario.always_down 1 (boot Scenario.the_api))
                    eq_refl)).
    intros i. eexists. reflexivity.
Defined.

Lemma fetch_url_of_tick_witness :
  New ":8080" "http://cg" = Some Scenario.the_api /\
  pc (run Scenario.always_up 8 (boot Scenario.the_api)) =
    Pc_Get "http://cg/coins/1388620800000" /\
  ticks (run Scenario.always_up 8 (boot Scenario.the_api)) = 1%nat /\
  "http://cg/coins/1388620800000" =
    Sprintf_coins "http://cg"
      (time.UnixMilli
         (days_after (time.Date 2014 time.January 1 0 0 0 0) (2 - 1))).
Proof.
  split; [reflexivity|]. split; [reflexivity|]. split; [reflexivity|].
  apply (fetch_url_of_tick Scenario.always_up ":8080" "http://cg"
           Scenario.the_api 8 "http://cg/coins/1388620800000");
    reflexivity.
Defined.

Lemma catalog_kept_while_fetch_fails_witness :
  (let up := Scenario.always_down in
   forall n, (n <= 2 * 3 + 1)%nat ->
     coins (api (run up n (run up 1 (boot Scenario.twice_btc)))) =
       coins Scenario.twice_btc)
  /\
  (let up := Scenario.always_up in
   let s := run up 1 (boot Scenario.twice_btc) in
   exists k r u,
     3%nat = S (S k) /\
     pc (run up k s) = Pc_Get u /\
     up (attempts (run up k s)) u = inl r /\
     pc (run up (S k) s) = Pc_Decode r /\
     pc (run up 3 s) = Pc_Store (fst (json_Decode (http.Body r) []))).
Proof.
  split.
  - apply (proj1 (catalog_kept_while_fetch_fails Scenario.always_down
                    (run Scenario.always_down 1 (boot Scenario.twice_btc))
                    eq_refl) 3%nat).
    intros i _. eexists. reflexivity.
  - apply (proj2 (catalog_kept_while_fetch_fails Scenario.always_up
                    (run Scenario.always_up 1 (boot Scenario.twice_btc))
                    eq_refl) 3%nat).
    discriminate.
Defined.

Lemma decode_error_is_ignored_witness :
  let up := Scenario.not_found_page in
  let s := run up 1 (boot Scenario.twice_btc) in
  let s' := run up 4 s in
  pc s' = Pc_Advance /\
  coins (api s') = [] /\
  attempts s' = 1%nat /\
  trace s' = trace s ++ [EvGet "http://cg/coins/1388534400000" (Scenario.ok 404 "")] /\
  pc (run up 6 s) = Pc_Refresh /\
  ticks (run up 6 s) = 1%nat.
Proof.
  apply (decode_error_is_ignored Scenario.not_found_page
           (run Scenario.not_found_page 1 (boot Scenario.twice_btc))
           0 {| http.StatusCode := 404; http.Body := "" |} []
           (errors_New "EOF") eq_refl).
  - intros i Hi. lia.
  - reflexivity.
  - reflexivity.
Defined.

(** C7 as the specification words it fails: with a decoder that goes on
    past an element it cannot decode, the decode of the body fails, and
    the catalog that [refreshCoins] installs is neither empty nor the
    catalog held before the call. *)
Lemma decode_error_empty_or_stale_counterexample :
  let up := Scenario.second_element_broken in
  let s := run up 1 (boot Scenario.api_past_errors) in
  let s' := run up 4 s in
  pc s = Pc_Refresh /\
  coins (api s) = [Scenario.coin "ltc" 3] /\
  (exists e,
     snd (@json_Decode _ Scenario.packages_past_errors "btc,?,eth" []) = Some e) /\
  pc s' = Pc_Advance /\
  coins (api s') = [Scenario.coin "btc" 1; m.zero; Scenario.coin "eth" 1] /\
  coins (api s') <> [] /\
  coins (api s') <> coins (api s).
Proof.
  repeat split; try discriminate. eexists. reflexivity.
Qed.

Lemma any_status_code_ends_the_fetch_witness :
  (let up := Scenario.not_found_page in
   let s := run up 1 (boot Scenario.twice_btc) in
   let s' := run up 4 s in
   pc s' = Pc_Advance /\
   attempts s' = 1%nat /\
   trace s' = trace s ++ [EvGet "http://cg/coins/1388534400000" (Scenario.ok 404 "")] /\
   coins (api s') = [])
  /\
  (let up := Scenario.always_down in
   pc (run up 3 (boot Scenario.twice_btc)) =
     Pc_RetrySleep "http://cg/coins/1388534400000" <->
   exists e, up 0%nat "http://cg/coins/1388534400000" = inr e).
Proof.
  split.
  - apply (proj1 (any_status_code_ends_the_fetch Scenario.not_found_page
                    (run Scenario.not_found_page 1 (boot Scenario.twice_btc)))
             eq_refl 404 "").
    reflexivity.
  - apply (proj2 (any_status_code_ends_the_fetch Scenario.always_down
                    (run Scenario.always_down 2 (boot Scenario.twice_btc)))
             "http://cg/coins/1388534400000").
    reflexivity.
Defined.

(** ** More on the lookup *)
Section GetCoinMore.

Context {F : CoinFields} {P : Packages}.

Lemma range_coins_found (cs : list m.Coin) (id : string) (c : m.Coin) :
  range_coins cs id = Some c -> In c cs /\ m.Id c = id.
Proof.
  induction cs as [|x cs IH]; simpl; [discriminate|].
  destruct (String.eqb_spec (m.Id x) id) as [E|_].
  - intros [= <-]. split; [left; reflexivity | exact E].
  - intros H. destruct (IH H) as [Hin Hid]. split; [right|]; assumption.
Qed.

Lemma range_coins_app (l1 l2 : list m.Coin) (id : string) :
  range_coins (l1 ++ l2) id =
    match range_coins l1 id with
    | Some c => Some c
    | None => range_coins l2 id
    end.
Proof.
  induction l1 as [|x l1 IH]; simpl; [reflexivity|].
  destruct (String.eqb (m.Id x) id); [reflexivity | exact IH].
Qed.

Lemma getCoin_error_None (a : Api) (id : string) :
  snd (fst (getCoin id a)) = None <-> range_coins (coins a) id <> None.
Proof.
  unfold getCoin. destruct (range_coins (coins a) id); simpl; split;
    congruence.
Qed.

Lemma range_coins_present (cs : list m.Coin) (id : string) :
  range_coins cs id <> None <-> exists c, In c cs /\ m.Id c = id.
Proof.
  split.
  - destruct (range_coins cs id) as [c|] eqn:E; [|congruence].
    intros _. exists c. apply range_coins_found. exact E.
  - intros (c & Hin & Hid) HN.
    apply (proj2 (range_coins_absent cs id) HN c Hin Hid).
Qed.

(** X1.  [getCoin] returns the [nil] error exactly when some coin of the
    catalog carries the identifier asked for. *)
Theorem getCoin_nil_error_iff_present (a : Api) (id : string) :
  snd (fst (getCoin id a)) = None <->
  exists c, In c (coins a) /\ m.Id c = id.
Proof.
  rewrite getCoin_error_None. apply range_coins_present.
Qed.

(** X2.  A coin that [getCoin] returns with the [nil] error is a coin of
    the catalog and carries the identifier asked for: the lookup never
    makes a coin up and never answers for another identifier. *)
Theorem getCoin_result_is_member (a : Api) (id : string) (c : m.Coin) :
  fst (getCoin id a) = (c, None) ->
  In c (coins a) /\ m.Id c = id.
Proof.
  unfold getCoin.
  destruct (range_coins (coins a) id) as [c'|] eqn:E; simpl;
    [|discriminate].
  intros [= <-]. apply range_coins_found. exact E.
Qed.

(** X3.  In a catalog whose identifiers are pairwise distinct, every
    coin is retrieved by its own identifier, wherever it stands. *)
Theorem getCoin_retrieves_every_coin (a : Api) (c : m.Coin) :
  NoDup (ids (coins a)) ->
  In c (coins a) ->
  getCoin (m.Id c) a = ((c, None), a).
Proof.
  intros Hnd Hin.
  assert (H : range_coins (coins a) (m.Id c) = Some c).
  { revert Hnd Hin. generalize (coins a) as cs.
    induction cs as [|x cs IH]; simpl; intros Hnd Hin; [destruct Hin|].
    inversion Hnd as [|i l Hx Hnd']; subst.
    destruct Hin as [->|Hin]; [rewrite String.eqb_refl; reflexivity|].
    destruct (String.eqb_spec (m.Id x) (m.Id c)) as [E|_].
    - exfalso. apply Hx. rewrite E. apply in_map. exact Hin.
    - apply IH; assumption. }
  unfold getCoin. rewrite H. reflexivity.
Qed.

(** X4.  What [getCoin] answers depends on the catalog up to the first
    match only: coins placed before it that carry other identifiers can
    be dropped, and once the identifier is found nothing appended to the
    catalog changes the answer. *)
Theorem getCoin_first_match_only
    (a : Api) (id : string) (l1 l2 : list m.Coin) :
  ((forall x, In x l1 -> m.Id x <> id) ->
   fst (getCoin id (set_coins (l1 ++ l2) a)) =
     fst (getCoin id (set_coins l2 a)))
  /\
  (snd (fst (getCoin id (set_coins l1 a))) = None ->
   fst (getCoin id (set_coins (l1 ++ l2) a)) =
     fst (getCoin id (set_coins l1 a))).
Proof.
  split.
  - intros Habs. apply range_coins_absent in Habs.
    unfold getCoin. simpl. rewrite range_coins_app, Habs.
    destruct (range_coins l2 id); reflexivity.
  - intros Hok. apply getCoin_error_None in Hok. simpl in Hok.
    unfold getCoin. simpl. rewrite range_coins_app.
    destruct (range_coins l1 id); [reflexivity | congruence].
Qed.

(** X5.  For an identifier that is not the empty string, the coin that
    [getCoin] returns is the zero coin exactly when the error is not
    [nil]: a coin found is never mistaken for the placeholder. *)
Theorem getCoin_zero_coin_iff_error (a : Api) (id : string) :
  id <> ""%string ->
  (fst (fst (getCoin id a)) = m.zero <-> snd (fst (getCoin id a)) <> None).
Proof.
  intros Hid. unfold getCoin.
  destruct (range_coins (coins a) id) as [c|] eqn:E; simpl.
  - apply range_coins_found in E. destruct E as [_ E]. split.
    + intros ->. simpl in E. congruence.
    + congruence.
  - split; [discriminate | reflexivity].
Qed.

End GetCoinMore.

Lemma getCoin_result_is_member_witness :
  In (Scenario.coin "ltc" 3) (coins Scenario.twice_btc) /\
  m.Id (Scenario.coin "ltc" 3) = "ltc"%string.
Proof.
  apply (getCoin_result_is_member Scenario.twice_btc "ltc"
           (Scenario.coin "ltc" 3)).
  reflexivity.
Defined.

Lemma getCoin_retrieves_every_coin_witness :
  getCoin "ltc" Scenario.three_coins =
    ((Scenario.coin "ltc" 3, None), Scenario.three_coins).
Proof.
  apply (getCoin_retrieves_every_coin Scenario.three_coins
           (Scenario.coin "ltc" 3)).
  - repeat constructor; simpl; intuition discriminate.
  - simpl. tauto.
Defined.

Lemma getCoin_first_match_only_witness :
  fst (getCoin "btc"
         (set_coins ([Scenario.coin "eth" 7] ++ [Scenario.coin "btc" 1])
            Scenario.the_api)) =
    fst (getCoin "btc" (set_coins [Scenario.coin "btc" 1] Scenario.the_api))
  /\
  fst (getCoin "btc"
         (set_coins ([Scenario.coin "btc" 1] ++ [Scenario.coin "btc" 2])
            Scenario.the_api)) =
    fst (getCoin "btc" (set_coins [Scenario.coin "btc" 1] Scenario.the_api)).
Proof.
  split.
  - apply (proj1 (getCoin_first_match_only Scenario.the_api "btc"
                    [Scenario.coin "eth" 7] [Scenario.coin "btc" 1])).
    intros x [<-|[]]. discriminate.
  - apply (proj2 (getCoin_first_match_only Scenario.the_api "btc"
                    [Scenario.coin "btc" 1] [Scenario.coin "btc" 2])).
    reflexivity.
Defined.

Lemma getCoin_zero_coin_iff_error_witness :
  fst (fst (getCoin "doge" Scenario.twice_btc)) = m.zero <->
  snd (fst (getCoin "doge" Scenario.twice_btc)) <> None.
Proof.
  apply (getCoin_zero_coin_iff_error Scenario.twice_btc "doge").
  discriminate.
Defined.

(** ** More on the daemon *)
Section DaemonMore.

Context {F : CoinFields} {P : Packages}.

Variable up : Upstream.

Lemma count_snoc (f : Event -> bool) (tr : list Event) (e : Event) :
  count f (tr ++ [e]) = (count f tr + if f e then 1 else 0)%nat.
Proof.
  unfold count. rewrite filter_app, length_app. simpl.
  destruct (f e); reflexivity.
Qed.

Lemma slept_app (tr tr' : list Event) :
  slept (tr ++ tr') = slept tr + slept tr'.
Proof.
  induction tr as [|e tr IH]; simpl; [reflexivity|].
  destruct e; rewrite IH; lia.
Qed.

Lemma slept_failed_attempts (url : string) (k0 K : nat) :
  slept (failed_attempts up url k0 K) = Z.of_nat K * time.Second.
Proof.
  induction K as [|K IH]; [reflexivity|].
  rewrite failed_attempts_S, slept_app, IH, Nat2Z.inj_succ. simpl. lia.
Qed.

(** The first answer among the attempts from number [k] on. *)
Lemma first_answer (url : string) (j k : nat) (r : http.Response) :
  up (k + j)%nat url = inl r ->
  exists K r',
    (forall i, (i < K)%nat -> fails up url (k + i)) /\
    up (k + K)%nat url = inl r'.
Proof.
  revert k. induction j as [|j IH]; intros k Hr.
  - exists 0%nat, r. split; [intros i Hi; lia | exact Hr].
  - destruct (up k url) as [r0|e] eqn:E.
    + exists 0%nat, r0. split; [intros i Hi; lia|].
      rewrite Nat.add_0_r. exact E.
    + destruct (IH (S k)) as (K & r' & Hf & Hr').
      { replace (S k + j)%nat with (k + S j)%nat by lia. exact Hr. }
      exists (S K), r'. split.
      * intros [|i] Hi.
        -- rewrite Nat.add_0_r. exists e. exact E.
        -- replace (k + S i)%nat with (S k + i)%nat by lia.
           apply Hf. lia.
      * replace (k + S K)%nat with (S k + K)%nat by lia. exact Hr'.
Qed.

(** One iteration of [managePrices] whose fetch fails [K] times and is
    then answered with [r], from the head of the loop back to it. *)
Lemma iteration_completes (K : nat) (r : http.Response) (s : Daemon) :
  pc s = Pc_Refresh ->
  (forall i, (i < K)%nat -> fails up (fetch_url (api s)) (attempts s + i)) ->
  up (attempts s + K)%nat (fetch_url (api s)) = inl r ->
  run up (2 * K + 6) s =
    {| api :=
         set_currentDate (time.Add (currentDate (api s)) (time.Hour * 24))
           (set_coins (fst (json_Decode (http.Body r) [])) (api s));
       pc := Pc_Refresh;
       attempts := attempts s + K + 1;
       ticks := S (ticks s);
       trace :=
         (trace s ++ failed_attempts up (fetch_url (api s)) (attempts s) K
                  ++ [EvGet (fetch_url (api s)) (inl r)])
           ++ [EvSleep (dayDuration (api s))] |}.
Proof.
  intros Hpc Hf Hr.
  replace (2 * K + 6)%nat with ((2 * K + 4) + 2)%nat by lia.
  rewrite run_add, (refreshCoins_returns up K r s Hpc Hf Hr).
  reflexivity.
Qed.

Lemma same_configuration_step (s : Daemon) :
  same_configuration (api (step up s)) (api s).
Proof.
  unfold same_configuration, step.
  destruct (pc s) as [| |url|url|r|cs| |]; simpl;
    try (destruct (up (attempts s) url); simpl);
    repeat split; reflexivity.
Qed.

Lemma trace_inv_step (s : Daemon) :
  trace_inv s -> trace_inv (step up s).
Proof.
  intros (Hd & Hl & Hg & Ha & Hf & Hm). unfold trace_inv, step.
  destruct (pc s) as [| |url|url|r|cs| |] eqn:E; simpl in *;
    try (destruct (up (attempts s) url); simpl);
    rewrite ?count_snoc; simpl; rewrite ?Hd;
    try change (time.Minute =? time.Second) with false;
    try change (time.Minute =? time.Minute) with true;
    try change (time.Second =? time.Minute) with false;
    try change (time.Second =? time.Second) with true;
    repeat split; try assumption; lia.
Qed.

Lemma trace_inv_run (la base : string) (a : Api) (n : nat) :
  New la base = Some a ->
  trace_inv (run up n (boot a)).
Proof.
  intros HN. induction n as [|n IH]; [|apply trace_inv_step; exact IH].
  destruct (New_fields la base a HN) as (_ & _ & Hd & _).
  unfold trace_inv. simpl. repeat split. exact Hd.
Qed.

Lemma log_first_run (a : Api) (n : nat) :
  match pc (run up n (boot a)) with
  | Pc_Log => trace (run up n (boot a)) = []
  | _ =>
      exists tl,
        trace (run up n (boot a)) =
          EvLog "Starting price management daemon with virtual time simulation..."
            :: tl
  end.
Proof.
  induction n as [|n IH]; [reflexivity|].
  change (run up (S n) (boot a)) with (step up (run up n (boot a))).
  set (s := run up n (boot a)) in *. clearbody s. unfold step.
  destruct (pc s) as [| |url|url|r|cs| |] eqn:E; simpl.
  - exists []. rewrite IH. reflexivity.
  - exact IH.
  - destruct IH as [tl IH].
    destruct (up (attempts s) url); simpl; rewrite IH; eexists; reflexivity.
  - destruct IH as [tl ->]. eexists. reflexivity.
  - exact IH.
  - exact IH.
  - exact IH.
  - destruct IH as [tl ->]. eexists. reflexivity.
Qed.

(** *** What the URL carries *)

Lemma string_app_inv_head (a x y : string) :
  (a ++ x)%string = (a ++ y)%string -> x = y.
Proof.
  induction a as [|c a IH]; simpl; [intros H; exact H|].
  intros [= H]. apply IH. exact H.
Qed.

Lemma format_int_inj (x y : Z) : format_int x = format_int y -> x = y.
Proof.
  unfold format_int. intros H.
  assert (Hz : forall z,
             NilZero.int_of_string (NilZero.string_of_int (Z.to_int z))
             = Some (Z.to_int z)).
  { intros z. apply NilZero.isi; destruct z; simpl; try discriminate.
    all: intros [= E]; apply (Unsigned.to_uint_nonnil _ E). }
  pose proof (Hz x) as Hx. rewrite H, Hz in Hx. injection Hx as Hx.
  rewrite <- (DecimalZ.of_to x), <- (DecimalZ.of_to y), Hx. reflexivity.
Qed.

Lemma UnixMilli_days_after (n : nat) :
  Z.of_nat n <= 106751975096 ->
  time.UnixMilli (days_after (time.Date 2014 time.January 1 0 0 0 0) n) =
    1388534400000 + 86400000 * Z.of_nat n.
Proof.
  intros Hn. unfold time.UnixMilli, days_after.
  replace (time.Date 2014 time.January 1 0 0 0 0)
    with (1388534400000 * 1000000) by reflexivity.
  replace (24 * time.Hour) with (86400000 * 1000000) by reflexivity.
  replace time.Millisecond with 1000000 by reflexivity.
  replace (1388534400000 * 1000000 + Z.of_nat n * (86400000 * 1000000))
    with ((1388534400000 + 86400000 * Z.of_nat n) * 1000000) by lia.
  rewrite Z.div_mul by lia.
  unfold time.int64. rewrite Z.mod_small; lia.
Qed.

(** The bound is the last iteration count that fits: one more and the
    count of milliseconds wraps to a negative [int64]. *)
Example UnixMilli_wraps :
  time.UnixMilli
    (days_after (time.Date 2014 time.January 1 0 0 0 0)
       (Z.to_nat 106751975097)) =
    1388534400000 + 86400000 * 106751975097 - 2 ^ 64.
Proof.
  unfold days_after. rewrite Z2Nat.id by lia. reflexivity.
Qed.

Lemma fetch_url_at_Get (la base : string) (a : Api) (n : nat) (url : string) :
  New la base = Some a ->
  pc (run up n (boot a)) = Pc_Get url ->
  Z.of_nat (ticks (run up n (boot a))) <= 106751975096 ->
  url = Sprintf_coins base
          (1388534400000 + 86400000 * Z.of_nat (ticks (run up n (boot a)))).
Proof.
  intros HN Hpc Hk.
  destruct (New_fields la base a HN) as (Hd & Hb & _).
  destruct (tick_inv_run up a n) as (Hdate & Hbase & Hurl).
  rewrite (Hurl url (or_introl Hpc)). unfold fetch_url.
  rewrite Hbase, Hb, Hdate, Hd, Hpc. simpl advanced.
  rewrite Nat.add_0_r, UnixMilli_days_after by exact Hk. reflexivity.
Qed.

(** X6.  In the daemon started on the [Api] built by [New base], as
    long as at most 106751975096 iterations are completed, so that the
    count of milliseconds fits an [int64], the URL of every call of
    [http.Get] is [base], then "/coins/", then the decimal writing of
    1388534400000 + 86400000 * k, where k is the number of completed
    iterations: the date asked for is a midnight UTC, and the cut to
    milliseconds loses nothing. *)
Theorem fetch_url_closed_form
    (la base : string) (a : Api) (n : nat) (url : string) :
  New la base = Some a ->
  pc (run up n (boot a)) = Pc_Get url ->
  Z.of_nat (ticks (run up n (boot a))) <= 106751975096 ->
  url = (base ++ "/coins/"
           ++ format_int
                (1388534400000
                 + 86400000 * Z.of_nat (ticks (run up n (boot a)))))%string.
Proof.
  intros HN Hpc Hk. apply (fetch_url_at_Get la base a n url HN Hpc Hk).
Qed.

(** X7.  In the daemon started on the [Api] built by [New], as long as
    at most 106751975096 iterations are completed, two calls of
    [http.Get] ask for the same URL exactly when they belong to the same
    iteration: retries repeat the URL, and no two iterations share one. *)
Theorem same_url_iff_same_tick
    (la base : string) (a : Api) (n1 n2 : nat) (u1 u2 : string) :
  New la base = Some a ->
  pc (run up n1 (boot a)) = Pc_Get u1 ->
  pc (run up n2 (boot a)) = Pc_Get u2 ->
  Z.of_nat (ticks (run up n1 (boot a))) <= 106751975096 ->
  Z.of_nat (ticks (run up n2 (boot a))) <= 106751975096 ->
  (u1 = u2 <-> ticks (run up n1 (boot a)) = ticks (run up n2 (boot a))).
Proof.
  intros HN H1 H2 K1 K2.
  rewrite (fetch_url_at_Get la base a n1 u1 HN H1 K1),
          (fetch_url_at_Get la base a n2 u2 HN H2 K2).
  unfold Sprintf_coins. split.
  - intros H. apply string_app_inv_head, string_app_inv_head in H.
    apply format_int_inj in H. lia.
  - intros ->. reflexivity.
Qed.

(** *** What the daemon writes, fetches, waits for and logs *)

(** X8.  From whatever state and for however long it runs, the daemon
    leaves the database handle, the router, the length of a day, the
    base URL, the listen address and the JWT handler of the [Api] as
    they were: it assigns the catalog and the date and nothing else. *)
Theorem configuration_never_changes (s : Daemon) (n : nat) :
  same_configuration (api (run up n s)) (api s).
Proof.
  induction n as [|n IH]; [repeat split|].
  simpl. pose proof (same_configuration_step (run up n s)) as H.
  unfold same_configuration in *.
  destruct H as (H1 & H2 & H3 & H4 & H5 & H6).
  destruct IH as (I1 & I2 & I3 & I4 & I5 & I6).
  repeat split; congruence.
Qed.

(** X9.  In the daemon started on the [Api] built by [New], the trace
    holds one call of [http.Get] per attempt counted, and the answered
    calls are one per completed iteration, plus one once the iteration
    under way has its response: no iteration completes without a
    response and none takes two. *)
Theorem one_answer_per_iteration (la base : string) (a : Api) (n : nat) :
  New la base = Some a ->
  let s := run up n (boot a) in
  count is_get (trace s) = attempts s /\
  count is_answered_get (trace s) = (ticks s + fetched (pc s))%nat.
Proof.
  intros HN s.
  destruct (trace_inv_run la base a n HN) as (_ & _ & Hg & Ha & _).
  split; assumption.
Qed.

(** X10.  In the daemon started on the [Api] built by [New], the delays
    of one second are as many as the failed calls of [http.Get], less
    the one still due right after a failure, and the delays of one
    minute are as many as the completed iterations. *)
Theorem delays_match_failures_and_ticks
    (la base : string) (a : Api) (n : nat) :
  New la base = Some a ->
  let s := run up n (boot a) in
  count is_failed_get (trace s) =
    (count (is_sleep time.Second) (trace s) + delay_due (pc s))%nat /\
  count (is_sleep time.Minute) (trace s) = ticks s.
Proof.
  intros HN s.
  destruct (trace_inv_run la base a n HN) as (_ & _ & _ & _ & Hf & Hm).
  split; assumption.
Qed.

(** X11.  In the daemon started on the [Api] built by [New], once the
    first statement is executed the trace begins with the message that
    announces the daemon and holds no other message: neither a failed
    attempt nor a failed decode is ever logged. *)
Theorem start_is_the_only_log (la base : string) (a : Api) (n : nat) :
  New la base = Some a ->
  exists tl,
    trace (run up (S n) (boot a)) =
      EvLog "Starting price management daemon with virtual time simulation..."
        :: tl /\
    count is_log tl = 0%nat.
Proof.
  intros HN.
  destruct (trace_inv_run la base a (S n) HN) as (_ & Hl & _).
  pose proof (log_first_run a (S n)) as Hfirst.
  assert (Hpc : started (pc (run up (S n) (boot a))) = 1%nat).
  { change (run up (S n) (boot a)) with (step up (run up n (boot a))).
    unfold step. destruct (pc (run up n (boot a))) as [| |url|url|r|cs| |];
      try reflexivity.
    cbv zeta. destruct (up (attempts (run up n (boot a))) url); reflexivity. }
  destruct (pc (run up (S n) (boot a))); try discriminate;
    destruct Hfirst as [tl Htl]; exists tl; (split; [exact Htl|]);
    rewrite Htl in Hl; unfold count in *; simpl in Hl; lia.
Qed.

(** X12.  An iteration of [managePrices] whose fetch fails [K] times and
    is then answered takes [2K+6] statements, after which the daemon is
    at the head of its loop again with one more iteration completed,
    the catalog replaced by what the response decodes to, the date one
    day later and [K+1] more attempts made. *)
Theorem one_iteration (s : Daemon) (K : nat) (r : http.Response) :
  pc s = Pc_Refresh ->
  (forall i, (i < K)%nat -> fails up (fetch_url (api s)) (attempts s + i)) ->
  up (attempts s + K)%nat (fetch_url (api s)) = inl r ->
  let s' := run up (2 * K + 6) s in
  pc s' = Pc_Refresh /\
  ticks s' = S (ticks s) /\
  coins (api s') = fst (json_Decode (http.Body r) []) /\
  currentDate (api s') = time.Add (currentDate (api s)) (time.Hour * 24) /\
  attempts s' = (attempts s + K + 1)%nat.
Proof.
  intros Hpc Hf Hr s'. subst s'.
  rewrite (iteration_completes K r s Hpc Hf Hr). repeat split.
Qed.

(** X13.  Such an iteration spends in [time.Sleep] one second per failed
    attempt and the length of a day, and nothing more. *)
Theorem iteration_sleeps (s : Daemon) (K : nat) (r : http.Response) :
  pc s = Pc_Refresh ->
  (forall i, (i < K)%nat -> fails up (fetch_url (api s)) (attempts s + i)) ->
  up (attempts s + K)%nat (fetch_url (api s)) = inl r ->
  slept (trace (run up (2 * K + 6) s)) =
    slept (trace s) + Z.of_nat K * time.Second + dayDuration (api s).
Proof.
  intros Hpc Hf Hr.
  rewrite (iteration_completes K r s Hpc Hf Hr). simpl trace.
  rewrite !slept_app, slept_failed_attempts. simpl. lia.
Qed.

(** X14.  When from any attempt on some later attempt is answered, the
    daemon completes every number of iterations: for every [N] it is,
    at some point, at the head of its loop with [N] iterations
    completed and the date [N] days after the one it started with. *)
Theorem every_day_is_reached (a : Api) (N : nat) :
  answers_eventually up ->
  exists n,
    pc (run up n (boot a)) = Pc_Refresh /\
    ticks (run up n (boot a)) = N /\
    currentDate (api (run up n (boot a))) = days_after (currentDate a) N.
Proof.
  intros Hup.
  assert (H : exists n, pc (run up n (boot a)) = Pc_Refresh /\
                        ticks (run up n (boot a)) = N).
  { induction N as [|N (n & Hpc & Ht)]; [exists 1%nat; split; reflexivity|].
    set (s := run up n (boot a)) in *.
    destruct (Hup (attempts s) (fetch_url (api s))) as (j & r & Hr).
    destruct (first_answer (fetch_url (api s)) j (attempts s) r Hr)
      as (K & r' & Hf & Hr').
    exists (n + (2 * K + 6))%nat. rewrite run_add. fold s.
    rewrite (iteration_completes K r' s Hpc Hf Hr'). simpl.
    split; [reflexivity | f_equal; exact Ht]. }
  destruct H as (n & Hpc & Ht). exists n. repeat split; try assumption.
  destruct (tick_inv_run up a n) as (Hd & _).
  rewrite Hd, Ht, Hpc. simpl. rewrite Nat.add_0_r. reflexivity.
Qed.

(** X15.  When [refreshCoins] is called and no attempt is ever answered,
    the [Api] stays for ever as it was at the call: the same catalog,
    the same date, and no further iteration completes. *)
Theorem unanswered_fetch_freezes_the_api (s : Daemon) (n : nat) :
  pc s = Pc_Refresh ->
  (forall i, fails up (fetch_url (api s)) (attempts s + i)) ->
  api (run up n s) = api s /\ ticks (run up n s) = ticks s.
Proof.
  intros Hpc Hf. destruct n as [|n]; [split; reflexivity|].
  rewrite run_first, (step_Refresh up s Hpc).
  set (s1 := goto (Pc_Get (fetch_url (api s))) s).
  destruct (retry_loop_prefix up (fetch_url (api s)) n n s1 eq_refl)
    as (_ & Ha & Ht); [intros i _; apply Hf | lia |].
  rewrite Ha, Ht. split; reflexivity.
Qed.

(** X16.  Once [refreshCoins] has returned, [getCoin] finds an
    identifier exactly when a coin decoded from the response carries
    it: what the catalog held before the call plays no part. *)
Theorem lookup_after_refresh
    (s : Daemon) (K : nat) (r : http.Response) (id : string) :
  pc s = Pc_Refresh ->
  (forall i, (i < K)%nat -> fails up (fetch_url (api s)) (attempts s + i)) ->
  up (attempts s + K)%nat (fetch_url (api s)) = inl r ->
  (snd (fst (getCoin id (api (run up (2 * K + 4) s)))) = None <->
   exists c, In c (fst (json_Decode (http.Body r) [])) /\ m.Id c = id).
Proof.
  intros Hpc Hf Hr.
  rewrite (refreshCoins_returns up K r s Hpc Hf Hr).
  rewrite getCoin_error_None. simpl. apply range_coins_present.
Qed.

(** X17.  In the daemon started on the [Api] built by [New], as long as
    no attempt has been answered the catalog is the list of coins that
    [New] read from the database. *)
Theorem database_coins_until_first_answer
    (la base : string) (a : Api) (K n : nat) :
  New la base = Some a ->
  (forall i, (i < K)%nat -> fails up (fetch_url a) i) ->
  (n <= 2 * K + 2)%nat ->
  coins (api (run up n (boot a))) = fst (db_GetCoins (database_Init "api.db")).
Proof.
  intros HN Hf Hn.
  destruct (New_fields la base a HN) as (_ & _ & _ & Hc). rewrite <- Hc.
  destruct n as [|[|n]]; [reflexivity | reflexivity |].
  rewrite !run_first.
  set (s2 := step up (step up (boot a))).
  destruct (retry_loop_prefix up (fetch_url a) K n s2 eq_refl)
    as (_ & Ha & _); [exact Hf | lia |].
  rewrite Ha. reflexivity.
Qed.

End DaemonMore.

(** ** The further properties in the concrete setting *)

Lemma fetch_url_closed_form_witness :
  "http://cg/coins/1388620800000"%string =
    ("http://cg" ++ "/coins/"
       ++ format_int
            (1388534400000
             + 86400000
               * Z.of_nat
                   (ticks (run Scenario.always_up 8 (boot Scenario.the_api)))))%string.
Proof.
  apply (fetch_url_closed_form Scenario.always_up ":8080" "http://cg"
           Scenario.the_api 8 "http://cg/coins/1388620800000");
    [reflexivity | reflexivity | simpl; lia].
Defined.

Lemma same_url_iff_same_tick_witness :
  "http://cg/coins/1388534400000"%string = "http://cg/coins/1388534400000"%string
  <->
  ticks (run Scenario.every_third 2 (boot Scenario.the_api)) =
    ticks (run Scenario.every_third 4 (boot Scenario.the_api)).
Proof.
  apply (same_url_iff_same_tick Scenario.every_third ":8080" "http://cg"
           Scenario.the_api 2 4
           "http://cg/coins/1388534400000" "http://cg/coins/1388534400000");
    [reflexivity | reflexivity | reflexivity | simpl; lia | simpl; lia].
Defined.

Lemma one_answer_per_iteration_witness :
  let s := run Scenario.every_third 20 (boot Scenario.the_api) in
  count is_get (trace s) = attempts s /\
  count is_answered_get (trace s) = (ticks s + fetched (pc s))%nat.
Proof.
  apply (one_answer_per_iteration Scenario.every_third ":8080" "http://cg"
           Scenario.the_api 20).
  reflexivity.
Defined.

Lemma delays_match_failures_and_ticks_witness :
  let s := run Scenario.every_third 20 (boot Scenario.the_api) in
  count is_failed_get (trace s) =
    (count (is_sleep time.Second) (trace s) + delay_due (pc s))%nat /\
  count (is_sleep time.Minute) (trace s) = ticks s.
Proof.
  apply (delays_match_failures_and_ticks Scenario.every_third ":8080"
           "http://cg" Scenario.the_api 20).
  reflexivity.
Defined.

Lemma start_is_the_only_log_witness :
  exists tl,
    trace (run Scenario.every_third 20 (boot Scenario.the_api)) =
      EvLog "Starting price management daemon with virtual time simulation..."
        :: tl /\
    count is_log tl = 0%nat.
Proof.
  apply (start_is_the_only_log Scenario.every_third ":8080" "http://cg"
           Scenario.the_api 19).
  reflexivity.
Defined.

Lemma one_iteration_witness :
  let up := Scenario.every_third in
  let s := run up 1 (boot Scenario.twice_btc) in
  let s' := run up 10 s in
  pc s' = Pc_Refresh /\
  ticks s' = 1%nat /\
  coins (api s') = [Scenario.coin "btc" 1; Scenario.coin "eth" 2] /\
  currentDate (api s') = time.Date 2014 time.January 2 0 0 0 0 /\
  attempts s' = 3%nat.
Proof.
  apply (one_iteration Scenario.every_third
           (run Scenario.every_third 1 (boot Scenario.twice_btc)) 2
           {| http.StatusCode := 200; http.Body := "btc,eth" |} eq_refl).
  - intros [|[|i]] Hi; [eexists; reflexivity | eexists; reflexivity | lia].
  - reflexivity.
Defined.

Lemma iteration_sleeps_witness :
  let up := Scenario.every_third in
  let s := run up 1 (boot Scenario.twice_btc) in
  slept (trace (run up 10 s)) = slept (trace s) + 2 * time.Second + time.Minute.
Proof.
  apply (iteration_sleeps Scenario.every_third
           (run Scenario.every_third 1 (boot Scenario.twice_btc)) 2
           {| http.StatusCode := 200; http.Body := "btc,eth" |} eq_refl).
  - intros [|[|i]] Hi; [eexists; reflexivity | eexists; reflexivity | lia].
  - reflexivity.
Defined.

Lemma every_day_is_reached_witness :
  exists n,
    pc (run Scenario.always_up n (boot Scenario.the_api)) = Pc_Refresh /\
    ticks (run Scenario.always_up n (boot Scenario.the_api)) = 2%nat /\
    currentDate (api (run Scenario.always_up n (boot Scenario.the_api))) =
      days_after (currentDate Scenario.the_api) 2.
Proof.
  apply (every_day_is_reached Scenario.always_up Scenario.the_api 2).
  intros k url. exists 0%nat. eexists. reflexivity.
Defined.

Lemma unanswered_fetch_freezes_the_api_witness :
  let up := Scenario.always_down in
  let s := run up 1 (boot Scenario.twice_btc) in
  api (run up 9 s) = api s /\ ticks (run up 9 s) = ticks s.
Proof.
  apply (unanswered_fetch_freezes_the_api Scenario.always_down
           (run Scenario.always_down 1 (boot Scenario.twice_btc)) 9 eq_refl).
  intros i. eexists. reflexivity.
Defined.

Lemma lookup_after_refresh_witness :
  let up := Scenario.every_third in
  let s := run up 1 (boot Scenario.twice_btc) in
  snd (fst (getCoin "ltc" (api (run up 8 s)))) = None <->
  exists c,
    In c [Scenario.coin "btc" 1; Scenario.coin "eth" 2] /\ m.Id c = "ltc"%string.
Proof.
  apply (lookup_after_refresh Scenario.every_third
           (run Scenario.every_third 1 (boot Scenario.twice_btc)) 2
           {| http.StatusCode := 200; http.Body := "btc,eth" |} "ltc" eq_refl).
  - intros [|[|i]] Hi; [eexists; reflexivity | eexists; reflexivity | lia].
  - reflexivity.
Defined.

Lemma database_coins_until_first_answer_witness :
  coins (api (run Scenario.always_down 8 (boot Scenario.the_api))) =
    fst (db_GetCoins (database_Init "api.db")).
Proof.
  apply (database_coins_until_first_answer Scenario.always_down
           ":8080" "http://cg" Scenario.the_api 3 8).
  - reflexivity.
  - intros i _. eexists. reflexivity.
  - lia.
Defined.
